(** * Log relay client: [scripts/read_socket.py]

    A shallow embedding of the coroutine [listen] and the properties of
    its connect / receive / print / retry loop.

    The script talks to three things that are not part of it: the network
    (through [websockets.connect] and [recv]), the [json] module and the
    terminal.  The network is a [world]: a script saying what every connect
    attempt and every [recv] does.  [json.loads] and two builtin text
    functions are the fields of a [runtime]; every theorem holds for any
    runtime.  The terminal and the socket are observed as a trace
    of [event]s.

    What is taken for granted: frames are text; the terminal takes what
    is written to it, so that [print] raises only when the text cannot be
    encoded, which can happen to the line made from a frame (line 15) and
    not to the three diagnostics, which are escaped or constant text;
    [asyncio.sleep] and the closing of the socket on leaving [async with]
    do not raise; every failure of [json.loads] is taken as a
    [JSONDecodeError] (the plain [ValueError] it raises for a number too
    long goes to the same handler); a sleep is the event [Sleep 5], not
    time passing. *)

From Stdlib Require Import String Ascii List ZArith Lia Bool DecimalString.
Import ListNotations.
Open Scope string_scope.

(** ** Exceptions *)

(** The exception classes that the calls of [listen] can raise, with the
    classes they derive from. *)
Inductive exn_class : Type :=
  | BaseException
  | KeyboardInterrupt
  | CancelledError
  | Exception
  | OSError
  | ConnectionError
  | ConnectionRefusedError
  | TimeoutError
  | ValueError
  | JSONDecodeError
  | UnicodeError
  | UnicodeEncodeError
  | LookupError
  | KeyError
  | TypeError
  | WebSocketException
  | ConnectionClosed
  | ConnectionClosedError
  | ConnectionClosedOK
  | InvalidHandshake
  | InvalidStatus
  | InvalidURI.

Definition exn_class_eq_dec (c d : exn_class) : {c = d} + {c <> d}.
Proof. decide equality. Defined.

Definition class_eqb (c d : exn_class) : bool :=
  if exn_class_eq_dec c d then true else false.

(** The direct base class ([class KeyError(LookupError)] and so on). *)
Definition base (c : exn_class) : option exn_class :=
  match c with
  | BaseException => None
  | KeyboardInterrupt => Some BaseException
  | CancelledError => Some BaseException
  | Exception => Some BaseException
  | OSError => Some Exception
  | ConnectionError => Some OSError
  | ConnectionRefusedError => Some ConnectionError
  | TimeoutError => Some OSError
  | ValueError => Some Exception
  | JSONDecodeError => Some ValueError
  | UnicodeError => Some ValueError
  | UnicodeEncodeError => Some UnicodeError
  | LookupError => Some Exception
  | KeyError => Some LookupError
  | TypeError => Some Exception
  | WebSocketException => Some Exception
  | ConnectionClosed => Some WebSocketException
  | ConnectionClosedError => Some ConnectionClosed
  | ConnectionClosedOK => Some ConnectionClosed
  | InvalidHandshake => Some WebSocketException
  | InvalidStatus => Some InvalidHandshake
  | InvalidURI => Some WebSocketException
  end.

Fixpoint ancestors (depth : nat) (c : exn_class) : list exn_class :=
  c :: match depth, base c with
       | S depth', Some b => ancestors depth' b
       | _, _ => []
       end.

(** The chain from a class up to [BaseException]; no chain is longer than
    five classes. *)
Definition mro (c : exn_class) : list exn_class := ancestors 5 c.

Definition issubclass (c d : exn_class) : bool :=
  existsb (class_eqb d) (mro c).

(** A raised exception: its class and the text [str(e)] gives. *)
Record exn : Type := mk_exn { class_of : exn_class; exn_str : string }.

Definition isinstance (e : exn) (c : exn_class) : bool :=
  issubclass (class_of e) c.

(** ** Results of calls that may raise *)

Inductive result (A : Type) : Type :=
  | Ok (a : A)
  | Raise (e : exn).
Arguments Ok {A} a.
Arguments Raise {A} e.

Definition bind {A B : Type} (r : result A) (f : A -> result B) : result B :=
  match r with
  | Ok a => f a
  | Raise e => Raise e
  end.

Notation "x <- r ;; k" := (bind r (fun x => k))
  (at level 61, r at next level, right associativity).

(** ** Python values *)

(** What [json.loads] can return.  A float carries the text that [repr]
    gives for it; a dict keeps its items in insertion order. *)
#[warnings="-register-all"]
Inductive pyobj : Type :=
  | PyNone
  | PyBool (b : bool)
  | PyInt (z : Z)
  | PyFloat (text : string)
  | PyStr (s : string)
  | PyList (items : list pyobj)
  | PyDict (items : list (string * pyobj)).

Fixpoint dict_get (items : list (string * pyobj)) (key : string) : option pyobj :=
  match items with
  | [] => None
  | (k, v) :: rest => if String.eqb k key then Some v else dict_get rest key
  end.

Fixpoint join (sep : string) (parts : list string) : string :=
  match parts with
  | [] => ""
  | [p] => p
  | p :: rest => p ++ sep ++ join sep rest
  end.

Definition int_str (z : Z) : string := NilZero.string_of_int (Z.to_int z).

(** ** The network *)

Inductive connect_result : Type :=
  | Established
  | ConnectRaises (e : exn).

Inductive recv_result : Type :=
  | Frame (data : string)
  | RecvRaises (e : exn).

(** [connect_at n] is what the [n]-th call of [websockets.connect] does,
    [recv_at n k] what the [k]-th [recv] on the connection it opened does. *)
Record world : Type := mk_world {
  connect_at : nat -> connect_result;
  recv_at : nat -> nat -> recv_result
}.

(** ** What the client is seen doing *)

Inductive event : Type :=
  | Connect (uri : string)
  | Recv
  | Send (data : string)
  | Close
  | Print (line : string)
  | Sleep (seconds : Z)
  | Uncaught (e : exn).

(** The two states of the loop, and the state after an exception has left
    [listen]. *)
Inductive state : Type :=
  | Disconnected (attempt : nat)
  | Connected (attempt : nat) (received : nat)
  | Terminated (e : exn).

(** How one pass through the body of the inner [while True] ends. *)
Inductive flow : Type :=
  | Continue
  | Break
  | Propagate (e : exn).

Definition uri : string := "ws://localhost:3001".

(** ** The coroutine [listen] *)

(** The Python functions [listen] relies on without defining them. *)
Record runtime : Type := mk_runtime {
  (** [json.loads] on the text of a frame: the decoded value, or the text
      of the [JSONDecodeError] it raises. *)
  json_loads : string -> string + pyobj;
  (** [repr] of a [str]: the text in quotes, escaped. *)
  str_repr : string -> string;
  (** The text of the [TypeError] raised by [v['key']] when [v] is not a
      dict. *)
  subscript_msg : pyobj -> string;
  (** What the encoding of standard output makes of a text: [None] when
      [print] can write it, the text of the [UnicodeEncodeError] that
      [print] raises otherwise. *)
  encode_error : string -> option string
}.

Section Listen.

Variable py : runtime.

Fixpoint py_repr (v : pyobj) : string :=
  match v with
  | PyNone => "None"
  | PyBool true => "True"
  | PyBool false => "False"
  | PyInt z => int_str z
  | PyFloat text => text
  | PyStr s => str_repr py s
  | PyList items => "[" ++ join ", " (map py_repr items) ++ "]"
  | PyDict items =>
      "{" ++ join ", " (map (fun kv => str_repr py (fst kv) ++ ": " ++ py_repr (snd kv)) items)
          ++ "}"
  end.

(** What a replacement field [{v}] of an f-string puts in the text:
    [str(v)]. *)
Definition py_str (v : pyobj) : string :=
  match v with
  | PyStr s => s
  | _ => py_repr v
  end.

(** [v[key]] for a [str] key. *)
Definition getitem (v : pyobj) (key : string) : result pyobj :=
  match v with
  | PyDict items =>
      match dict_get items key with
      | Some x => Ok x
      | None => Raise (mk_exn KeyError (str_repr py key))
      end
  | _ => Raise (mk_exn TypeError (subscript_msg py v))
  end.

Definition loads (message : string) : result pyobj :=
  match json_loads py message with
  | inr v => Ok v
  | inl msg => Raise (mk_exn JSONDecodeError msg)
  end.

Definition await_recv (r : recv_result) : result string :=
  match r with
  | Frame data => Ok data
  | RecvRaises e => Raise e
  end.

(** [print(line)] on line 15: the line when it has been written. *)
Definition print_line (line : string) : result string :=
  match encode_error py line with
  | None => Ok line
  | Some msg => Raise (mk_exn UnicodeEncodeError msg)
  end.

(** Lines 13 to 15: the body of the inner [try].  It gives the line it
    has printed, or the exception raised by [recv], by [json.loads], by a
    lookup or by [print]. *)
Definition read_and_render (r : recv_result) : result string :=
  message <- await_recv r ;;
  log_data <- loads message ;;
  type <- getitem log_data "type" ;;
  let shown_type := py_str type in
  message' <- getitem log_data "message" ;;
  print_line ("[" ++ shown_type ++ "] " ++ py_str message').

(** Lines 12 to 21: one pass through the inner loop, with its two
    handlers in the order they are written. *)
Definition inner_iteration (r : recv_result) : list event * flow :=
  match read_and_render r with
  | Ok line => ([Recv; Print line], Continue)
  | Raise e =>
      if isinstance e ConnectionClosed then
        ([Recv; Print "Connection closed."], Break)
      else if isinstance e Exception then
        ([Recv; Print ("An error occurred: " ++ exn_str e)], Break)
      else
        ([Recv], Propagate e)
  end.

(** Line 22: the classes the outer handler names. *)
Definition outer_catches (e : exn) : bool :=
  isinstance e OSError || isinstance e ConnectionClosedError.

(** Lines 22 to 24: an exception reaches the outer [try] during attempt
    [n].  Caught, it is reported, the client sleeps and the outer loop
    goes round; otherwise it leaves [listen]. *)
Definition outer_except (n : nat) (e : exn) : list event * state :=
  if outer_catches e then
    ([Print "Connection failed. Retrying in 5 seconds..."; Sleep 5], Disconnected (S n))
  else
    ([Uncaught e], Terminated e).

(** One transition: a connect attempt when disconnected, one pass
    through the inner loop when connected.  Leaving the [async with]
    block, by [break] or by an exception, closes the socket. *)
Definition step (w : world) (s : state) : list event * state :=
  match s with
  | Disconnected n =>
      match connect_at w n with
      | Established => ([Connect uri], Connected n 0)
      | ConnectRaises e =>
          let (evs, s') := outer_except n e in (Connect uri :: evs, s')
      end
  | Connected n k =>
      match inner_iteration (recv_at w n k) with
      | (evs, Continue) => (evs, Connected n (S k))
      | (evs, Break) => ((evs ++ [Close])%list, Disconnected (S n))
      | (evs, Propagate e) =>
          let (evs', s') := outer_except n e in ((evs ++ Close :: evs')%list, s')
      end
  | Terminated e => ([], Terminated e)
  end.

(** The first [fuel] transitions from [s]: the events in order and the
    state reached. *)
Fixpoint run (w : world) (fuel : nat) (s : state) : list event * state :=
  match fuel with
  | O => ([], s)
  | S fuel' =>
      let (evs, s') := step w s in
      let (evs', s'') := run w fuel' s' in
      ((evs ++ evs')%list, s'')
  end.

(** [asyncio.run(listen())] starts at the top of the outer loop. *)
Definition initial : state := Disconnected 0.

(** What [listen] has done, and where it is, after [fuel] transitions. *)
Definition listen (w : world) (fuel : nat) : list event * state :=
  run w fuel initial.

End Listen.

(** ** A sample runtime and sample worlds *)

(** The double quote character. *)
Definition dq : string := String (ascii_of_nat 34) EmptyString.

(** [{"type":"INFO","message":"started"}] *)
Definition frame_info : string :=
  "{" ++ dq ++ "type" ++ dq ++ ":" ++ dq ++ "INFO" ++ dq ++ ","
      ++ dq ++ "message" ++ dq ++ ":" ++ dq ++ "started" ++ dq ++ "}".

(** [{"type":"ERROR","message":"disk full"}] *)
Definition frame_error : string :=
  "{" ++ dq ++ "type" ++ dq ++ ":" ++ dq ++ "ERROR" ++ dq ++ ","
      ++ dq ++ "message" ++ dq ++ ":" ++ dq ++ "disk full" ++ dq ++ "}".

(** [{"type": 1, "message": 2}] *)
Definition frame_numbers : string :=
  "{" ++ dq ++ "type" ++ dq ++ ": 1, " ++ dq ++ "message" ++ dq ++ ": 2}".

(** [{"message":"no type here"}] *)
Definition frame_untyped : string :=
  "{" ++ dq ++ "message" ++ dq ++ ":" ++ dq ++ "no type here" ++ dq ++ "}".

(** [[1, 2]] *)
Definition frame_array : string := "[1, 2]".

(** [{"type": [-7, null, false, "a"], "message": {"k": true, "f": 1.5}}] *)
Definition frame_nested : string :=
  "{" ++ dq ++ "type" ++ dq ++ ": [-7, null, false, " ++ dq ++ "a" ++ dq ++ "], "
      ++ dq ++ "message" ++ dq ++ ": {" ++ dq ++ "k" ++ dq ++ ": true, "
      ++ dq ++ "f" ++ dq ++ ": 1.5}}".

(** [{"type":"\ud800","message":"x"}]: the escape stands for a lone
    surrogate, which [json.loads] accepts. *)
Definition frame_surrogate : string :=
  "{" ++ dq ++ "type" ++ dq ++ ":" ++ dq ++ "\ud800" ++ dq ++ ","
      ++ dq ++ "message" ++ dq ++ ":" ++ dq ++ "x" ++ dq ++ "}".

(** [{"type": 1, "message": "\ud800"}] *)
Definition frame_number_surrogate : string :=
  "{" ++ dq ++ "type" ++ dq ++ ": 1, " ++ dq ++ "message" ++ dq ++ ": "
      ++ dq ++ "\ud800" ++ dq ++ "}".

Definition frame_garbage : string := "not json".

(** The character U+D800, a surrogate with no partner, as the three bytes
    that stand for it. *)
Definition lone_surrogate : string :=
  String (ascii_of_nat 237) (String (ascii_of_nat 160) (String (ascii_of_nat 128) EmptyString)).

(** [json.loads] on the frames above; every other text stands for one that
    is not JSON. *)
Definition sample_loads (text : string) : string + pyobj :=
  if String.eqb text frame_info then
    inr (PyDict [("type", PyStr "INFO"); ("message", PyStr "started")])
  else if String.eqb text frame_error then
    inr (PyDict [("type", PyStr "ERROR"); ("message", PyStr "disk full")])
  else if String.eqb text frame_numbers then
    inr (PyDict [("type", PyInt 1); ("message", PyInt 2)])
  else if String.eqb text frame_untyped then
    inr (PyDict [("message", PyStr "no type here")])
  else if String.eqb text frame_array then
    inr (PyList [PyInt 1; PyInt 2])
  else if String.eqb text frame_nested then
    inr (PyDict [("type", PyList [PyInt (-7); PyNone; PyBool false; PyStr "a"]);
                 ("message", PyDict [("k", PyBool true); ("f", PyFloat "1.5")])])
  else if String.eqb text frame_surrogate then
    inr (PyDict [("type", PyStr lone_surrogate); ("message", PyStr "x")])
  else if String.eqb text frame_number_surrogate then
    inr (PyDict [("type", PyInt 1); ("message", PyStr lone_surrogate)])
  else
    inl "Expecting value: line 1 column 1 (char 0)".

(** [repr] on text with no quote, backslash or control character. *)
Definition sample_repr (s : string) : string := "'" ++ s ++ "'".

Definition sample_subscript_msg (v : pyobj) : string :=
  match v with
  | PyNone => "'NoneType' object is not subscriptable"
  | PyBool _ => "'bool' object is not subscriptable"
  | PyInt _ => "'int' object is not subscriptable"
  | PyFloat _ => "'float' object is not subscriptable"
  | PyStr _ => "string indices must be integers, not 'str'"
  | PyList _ => "list indices must be integers or slices, not str"
  | PyDict _ => ""
  end.

(** Standard output in UTF-8, on text that is ASCII up to a lone U+D800:
    the text cannot be encoded. *)
Definition sample_encode_error (text : string) : option string :=
  match index 0 lone_surrogate text with
  | Some position =>
      Some ("'utf-8' codec can't encode character '\ud800' in position "
              ++ NilZero.string_of_uint (Nat.to_uint position)
              ++ ": surrogates not allowed")
  | None => None
  end.

Definition sample_py : runtime :=
  mk_runtime sample_loads sample_repr sample_subscript_msg sample_encode_error.

Definition refused : exn :=
  mk_exn ConnectionRefusedError "[Errno 111] Connect call failed ('127.0.0.1', 3001)".

Definition closed_ok : exn :=
  mk_exn ConnectionClosedOK "received 1000 (OK); then sent 1000 (OK)".

Definition closed_abruptly : exn :=
  mk_exn ConnectionClosedError "no close frame received or sent".

Definition rejected : exn :=
  mk_exn InvalidStatus "server rejected WebSocket connection: HTTP 404".

(** A world from a finite script: one entry per connect attempt, with the
    frames of the connection when it is established.  After the frames
    listed the peer closes cleanly; after the attempts listed the peer
    refuses every connection. *)
Definition scripted (script : list (connect_result * list recv_result)) : world :=
  mk_world
    (fun n => fst (nth n script (ConnectRaises refused, [])))
    (fun n k => nth k (snd (nth n script (ConnectRaises refused, []))) (RecvRaises closed_ok)).

(** The server of the second scenario of the specification: one message,
    then a clean close. *)
Definition world_error_then_close : world :=
  scripted [(Established, [Frame frame_error])].

(** A server that is down twice, then up. *)
Definition world_late_server : world :=
  scripted [(ConnectRaises refused, []); (ConnectRaises refused, []);
            (Established, [Frame frame_info])].

(** A peer that is never there. *)
Definition world_unreachable : world := scripted [].

(** A connection that is lost without a close frame, to a server that
    accepts the next connection. *)
Definition world_abrupt : world :=
  scripted [(Established, [Frame frame_info; RecvRaises closed_abruptly]);
            (Established, [Frame frame_info])].

(** A server that answers the handshake with an HTTP error. *)
Definition world_rejecting : world :=
  scripted [(ConnectRaises rejected, [])].

(** A server that is down once and then answers the handshake with an
    HTTP error. *)
Definition world_down_then_rejecting : world :=
  scripted [(ConnectRaises refused, []); (ConnectRaises rejected, [])].

(** A server that sends one frame of each kind, one per connection. *)
Definition world_mixed : world :=
  scripted [(Established, [Frame frame_garbage]);
            (Established, [Frame frame_untyped]);
            (Established, [Frame frame_array]);
            (Established, [Frame frame_numbers; Frame frame_info])].

(** ** Notions the properties are stated with *)

(** A decoded frame has a field when it is an object with that key. *)
Definition has_field (v : pyobj) (key : string) : bool :=
  match v with
  | PyDict items =>
      match dict_get items key with
      | Some _ => true
      | None => false
      end
  | _ => false
  end.

(** A frame is well formed when it is JSON for an object with the keys
    [type] and [message]; it is malformed otherwise. *)
Definition wellformed (py : runtime) (frame : string) : bool :=
  match json_loads py frame with
  | inl _ => false
  | inr v => has_field v "type" && has_field v "message"
  end.

Definition is_terminated (s : state) : bool :=
  match s with
  | Terminated _ => true
  | _ => false
  end.

(** The state fails when the call it is about to make raises: the connect
    attempt, or the receive and decode of the next frame. *)
Definition fails (py : runtime) (w : world) (s : state) : Prop :=
  match s with
  | Disconnected n => exists e, connect_at w n = ConnectRaises e
  | Connected n k => exists e, read_and_render py (recv_at w n k) = Raise e
  | Terminated _ => False
  end.

(** A world whose failures are all of a class some handler of [listen]
    names: connects fail with an [OSError] or a [ConnectionClosedError],
    receives with an [Exception]. *)
Definition catchable (w : world) : Prop :=
  (forall n e, connect_at w n = ConnectRaises e -> outer_catches e = true)
  /\ (forall n k e, recv_at w n k = RecvRaises e -> isinstance e Exception = true).

Definition catchable_connect (c : connect_result) : bool :=
  match c with
  | Established => true
  | ConnectRaises e => outer_catches e
  end.

Definition catchable_recv (r : recv_result) : bool :=
  match r with
  | Frame _ => true
  | RecvRaises e => isinstance e Exception
  end.

Definition catchable_script (script : list (connect_result * list recv_result)) : bool :=
  forallb (fun entry => catchable_connect (fst entry) && forallb catchable_recv (snd entry))
          script.

(** What is seen of [k] failed connect attempts in a row. *)
Fixpoint retries (k : nat) : list event :=
  match k with
  | O => []
  | S k' =>
      Connect uri :: Print "Connection failed. Retrying in 5 seconds..." :: Sleep 5
        :: retries k'
  end.

(** The events the client may be seen doing if it only ever connects to
    the fixed address, receives and closes. *)
Definition permitted (ev : event) : bool :=
  match ev with
  | Send _ => false
  | Connect u => String.eqb u uri
  | _ => true
  end.

(** ** Counting what is seen *)

Definition is_close (ev : event) : bool :=
  match ev with Close => true | _ => false end.

Definition is_recv (ev : event) : bool :=
  match ev with Recv => true | _ => false end.

Definition is_print (ev : event) : bool :=
  match ev with Print _ => true | _ => false end.

Definition is_sleep (ev : event) : bool :=
  match ev with Sleep _ => true | _ => false end.

Definition is_connect (ev : event) : bool :=
  match ev with Connect _ => true | _ => false end.

Definition count (p : event -> bool) (trace : list event) : nat :=
  length (filter p trace).

Definition is_established (c : connect_result) : bool :=
  match c with Established => true | ConnectRaises _ => false end.

(** How many of the connect attempts before attempt [m] opened a
    connection. *)
Definition established_before (w : world) (m : nat) : nat :=
  length (filter is_established (map (connect_at w) (seq 0 m))).

(** The connection the client is on, if any, is the one socket still
    open. *)
Definition open_sockets (s : state) : nat :=
  match s with
  | Connected _ _ => 1
  | _ => 0
  end.

(** After [connects] connect attempts and [closes] closes the client is in
    state [s] with every socket accounted for: those opened by the
    attempts made are closed, all but the one the client is on. *)
Definition accounted (w : world) (closes connects : nat) (s : state) : Prop :=
  closes + open_sockets s = established_before w connects
  /\ match s with
     | Disconnected m => connects = m
     | Connected m _ => connects = S m /\ connect_at w m = Established
     | Terminated _ => True
     end.

(** The line printed for the [i]-th frame of connection [n], when the
    inner [try] raises nothing on it. *)
Definition line_at (py : runtime) (w : world) (n i : nat) : string :=
  match read_and_render py (recv_at w n i) with
  | Ok line => line
  | Raise _ => ""
  end.

(** What is seen of [k] frames of connection [n], from the [j]-th on, when
    all of them decode and are printed. *)
Definition lines (py : runtime) (w : world) (n j k : nat) : list event :=
  flat_map (fun i => [Recv; Print (line_at py w n i)]) (seq j k).

(** Two worlds that differ at most in what connection [n] would deliver
    after its [k]-th receive. *)
Definition same_up_to (w w' : world) (n k : nat) : Prop :=
  (forall m, connect_at w m = connect_at w' m)
  /\ (forall m j, m <> n \/ j <= k -> recv_at w m j = recv_at w' m j).

(** The attempt a state belongs to is [n] or a later one. *)
Definition from_attempt (n : nat) (s : state) : Prop :=
  match s with
  | Disconnected m => n <= m
  | Connected m _ => n <= m
  | Terminated _ => True
  end.

(** A connection whose second frame is malformed and whose third is
    well formed, and the same connection without the third frame. *)
Definition world_cut_short : world :=
  scripted [(Established, [Frame frame_info; Frame frame_garbage; Frame frame_error]);
            (Established, [Frame frame_numbers])].

Definition world_cut_short' : world :=
  scripted [(Established, [Frame frame_info; Frame frame_garbage]);
            (Established, [Frame frame_numbers])].

(** A receive interrupted from outside. *)
Definition cancelled : exn := mk_exn CancelledError "".

Definition world_cancelled : world :=
  scripted [(Established, [Frame frame_info; RecvRaises cancelled])].

(** * Properties *)

(** ** The class hierarchy *)

Lemma closed_ok_is_closed (e : exn) :
  isinstance e ConnectionClosedOK = true -> isinstance e ConnectionClosed = true.
Proof. destruct e as [c msg]; destruct c; simpl; intros H; try discriminate H; reflexivity. Qed.

Lemma closed_error_is_closed (e : exn) :
  isinstance e ConnectionClosedError = true -> isinstance e ConnectionClosed = true.
Proof. destruct e as [c msg]; destruct c; simpl; intros H; try discriminate H; reflexivity. Qed.

Lemma outer_catches_exception (e : exn) :
  outer_catches e = true -> isinstance e Exception = true.
Proof.
  unfold outer_catches. destruct e as [c msg]; destruct c; simpl; intros H;
    try discriminate H; reflexivity.
Qed.

Lemma handshake_failure_not_caught (e : exn) :
  isinstance e InvalidHandshake = true -> outer_catches e = false.
Proof.
  unfold outer_catches. destruct e as [c msg]; destruct c; simpl; intros H;
    try discriminate H; reflexivity.
Qed.

Lemma append_assoc (a b c : string) : (a ++ b) ++ c = a ++ b ++ c.
Proof. induction a as [ | x a IH]; simpl; [reflexivity | rewrite IH; reflexivity]. Qed.

Section Properties.

Variable py : runtime.

(** ** One pass through the inner loop *)

(** Where an exception of the inner [try] comes from: [recv], or one of
    the classes that decoding and printing raise. *)
Lemma read_and_render_raises (r : recv_result) (e : exn) :
  read_and_render py r = Raise e ->
  r = RecvRaises e
  \/ class_of e = JSONDecodeError \/ class_of e = KeyError \/ class_of e = TypeError
  \/ class_of e = UnicodeEncodeError.
Proof.
  unfold read_and_render, await_recv, loads, getitem, print_line, bind.
  destruct r as [frame | e0].
  - destruct (json_loads py frame) as [msg | v].
    + intros H; injection H as <-; auto.
    + destruct v as [ | b | z | text | s | items | items];
        try (intros H; injection H as <-; now auto).
      destruct (dict_get items "type");
        [ | intros H; injection H as <-; now auto].
      destruct (dict_get items "message");
        [ | intros H; injection H as <-; now auto 6].
      destruct (encode_error py _); [ | discriminate].
      intros H; injection H as <-; auto 6.
  - intros H; injection H as <-; auto.
Qed.

(** An exception of the inner [try] that does not come from [recv] is an
    [Exception] and no [ConnectionClosed]: the second handler takes it. *)
Lemma read_and_render_caught (r : recv_result) (e : exn) :
  read_and_render py r = Raise e ->
  r = RecvRaises e
  \/ (isinstance e ConnectionClosed = false /\ isinstance e Exception = true).
Proof.
  intros Hr. destruct (read_and_render_raises r e Hr) as [H | [H | [H | [H | H]]]];
    [left; exact H | right .. ]; unfold isinstance; rewrite H; split; reflexivity.
Qed.

Lemma render_wellformed (frame : string) (items : list (string * pyobj)) (T M : pyobj) :
  json_loads py frame = inr (PyDict items) ->
  dict_get items "type" = Some T ->
  dict_get items "message" = Some M ->
  read_and_render py (Frame frame) = print_line py ("[" ++ py_str py T ++ "] " ++ py_str py M).
Proof.
  intros Hl Ht Hm. unfold read_and_render, await_recv, loads, getitem, bind.
  rewrite Hl, Ht, Hm. reflexivity.
Qed.

(** A malformed frame makes decoding raise an exception that is an
    [Exception] and no [ConnectionClosed]. *)
Lemma render_malformed (frame : string) :
  wellformed py frame = false ->
  exists e, read_and_render py (Frame frame) = Raise e
            /\ isinstance e ConnectionClosed = false
            /\ isinstance e Exception = true.
Proof.
  unfold wellformed, read_and_render, await_recv, loads, getitem, bind, has_field.
  destruct (json_loads py frame) as [msg | v].
  - intros _. eexists; repeat split; reflexivity.
  - destruct v as [ | b | z | text | s | items | items];
      try (intros _; eexists; repeat split; reflexivity).
    destruct (dict_get items "type").
    + destruct (dict_get items "message"); [discriminate | ].
      intros _. eexists; repeat split; reflexivity.
    + intros _. eexists; repeat split; reflexivity.
Qed.

Lemma step_break_closed (w : world) (n k : nat) (e : exn) :
  read_and_render py (recv_at w n k) = Raise e ->
  isinstance e ConnectionClosed = true ->
  step py w (Connected n k) = ([Recv; Print "Connection closed."; Close], Disconnected (S n)).
Proof.
  intros Hr Hc. unfold step, inner_iteration. rewrite Hr, Hc. reflexivity.
Qed.

Lemma step_break_error (w : world) (n k : nat) (e : exn) :
  read_and_render py (recv_at w n k) = Raise e ->
  isinstance e ConnectionClosed = false ->
  isinstance e Exception = true ->
  step py w (Connected n k)
  = ([Recv; Print ("An error occurred: " ++ exn_str e); Close], Disconnected (S n)).
Proof.
  intros Hr Hc He. unfold step, inner_iteration. rewrite Hr, Hc, He. reflexivity.
Qed.

(** An established connection lost without a close frame is handled by
    the same handler as a clean close. *)
Lemma step_abrupt_close (w : world) (n k : nat) (e : exn) :
  recv_at w n k = RecvRaises e ->
  isinstance e ConnectionClosedError = true ->
  step py w (Connected n k) = ([Recv; Print "Connection closed."; Close], Disconnected (S n)).
Proof.
  intros Hr Hclass. apply (step_break_closed w n k e).
  - rewrite Hr. reflexivity.
  - apply closed_error_is_closed. exact Hclass.
Qed.

(** ** A connect attempt *)

Lemma step_connect_caught (w : world) (n : nat) (e : exn) :
  connect_at w n = ConnectRaises e ->
  outer_catches e = true ->
  step py w (Disconnected n)
  = ([Connect uri; Print "Connection failed. Retrying in 5 seconds..."; Sleep 5],
     Disconnected (S n)).
Proof.
  intros Hc Ho. unfold step, outer_except. rewrite Hc, Ho. reflexivity.
Qed.

Lemma step_connect_uncaught (w : world) (n : nat) (e : exn) :
  connect_at w n = ConnectRaises e ->
  outer_catches e = false ->
  step py w (Disconnected n) = ([Connect uri; Uncaught e], Terminated e).
Proof.
  intros Hc Ho. unfold step, outer_except. rewrite Hc, Ho. reflexivity.
Qed.

(** Every transition from the disconnected state starts by calling
    [connect]: nothing comes before it. *)
Lemma step_disconnected_first (w : world) (n : nat) :
  exists rest, fst (step py w (Disconnected n)) = Connect uri :: rest.
Proof.
  unfold step. destruct (connect_at w n) as [ | e].
  - eexists; reflexivity.
  - destruct (outer_except n e) as [evs s']. eexists; reflexivity.
Qed.

(** The client sleeps only in the transition of a failed connect
    attempt, and then for five seconds. *)
Lemma sleep_only_after_failed_connect (w : world) (s : state) (d : Z) :
  In (Sleep d) (fst (step py w s)) ->
  d = 5%Z /\ exists n e, s = Disconnected n /\ connect_at w n = ConnectRaises e.
Proof.
  destruct s as [n | n k | e]; simpl.
  - destruct (connect_at w n) as [ | e] eqn:Hc.
    + simpl. intros [H | []]; discriminate H.
    + unfold outer_except. destruct (outer_catches e); simpl.
      * intros [H | [H | [H | []]]]; try discriminate H.
        injection H as <-. split; [reflexivity | eauto].
      * intros [H | [H | []]]; discriminate H.
  - unfold inner_iteration.
    destruct (read_and_render py (recv_at w n k)) as [line | e] eqn:Hr.
    + simpl. intros [H | [H | []]]; discriminate H.
    + destruct (isinstance e ConnectionClosed).
      * simpl. intros [H | [H | [H | []]]]; discriminate H.
      * destruct (isinstance e Exception) eqn:He.
        -- simpl. intros [H | [H | [H | []]]]; discriminate H.
        -- unfold outer_except.
           destruct (outer_catches e) eqn:Ho.
           ++ apply outer_catches_exception in Ho. congruence.
           ++ simpl. intros [H | [H | [H | []]]]; discriminate H.
  - intros [].
Qed.

(** ** Runs *)

Lemma run_S (w : world) (fuel : nat) (s : state) :
  run py w (S fuel) s
  = ((fst (step py w s) ++ fst (run py w fuel (snd (step py w s))))%list,
     snd (run py w fuel (snd (step py w s)))).
Proof.
  simpl. destruct (step py w s) as [evs s']. simpl.
  destruct (run py w fuel s') as [evs' s'']. reflexivity.
Qed.

Lemma run_2 (w : world) (s : state) :
  fst (run py w 2 s)
  = (fst (step py w s) ++ fst (step py w (snd (step py w s))))%list.
Proof.
  simpl. destruct (step py w s) as [evs s']. simpl.
  destruct (step py w s') as [evs' s'']. simpl. rewrite app_nil_r. reflexivity.
Qed.

Lemma run_terminated (w : world) (fuel : nat) (e : exn) :
  run py w fuel (Terminated e) = ([], Terminated e).
Proof.
  induction fuel as [ | fuel IH]; [reflexivity | ].
  rewrite run_S. simpl. rewrite IH. reflexivity.
Qed.

(** Running [a + b] transitions is running [a], then [b] from where that
    ended. *)
Lemma run_app (w : world) (a b : nat) (s : state) :
  run py w (a + b) s
  = ((fst (run py w a s) ++ fst (run py w b (snd (run py w a s))))%list,
     snd (run py w b (snd (run py w a s)))).
Proof.
  revert s. induction a as [ | a IH]; intros s.
  - simpl. destruct (run py w b s); reflexivity.
  - change (S a + b) with (S (a + b)). rewrite !run_S, IH. simpl.
    rewrite app_assoc. reflexivity.
Qed.

(** In a world of catchable failures no transition ends the client. *)
Lemma step_alive (w : world) (s : state) :
  catchable w ->
  is_terminated s = false ->
  is_terminated (snd (step py w s)) = false.
Proof.
  intros [Hconn Hrecv]. destruct s as [n | n k | e]; simpl; [ | | discriminate].
  - intros _. destruct (connect_at w n) as [ | e] eqn:Hc; [reflexivity | ].
    unfold outer_except. rewrite (Hconn n e Hc). reflexivity.
  - intros _. unfold inner_iteration.
    destruct (read_and_render py (recv_at w n k)) as [line | e] eqn:Hr; [reflexivity | ].
    destruct (isinstance e ConnectionClosed); [reflexivity | ].
    assert (He : isinstance e Exception = true).
    { destruct (read_and_render_caught _ _ Hr) as [H | [_ H]].
      - apply (Hrecv n k e H).
      - exact H. }
    rewrite He. reflexivity.
Qed.

Lemma run_alive (w : world) (fuel : nat) (s : state) :
  catchable w ->
  is_terminated s = false ->
  is_terminated (snd (run py w fuel s)) = false.
Proof.
  intros Hw. revert s. induction fuel as [ | fuel IH]; intros s Hs.
  - exact Hs.
  - rewrite run_S. simpl. apply IH. apply step_alive; assumption.
Qed.

(** A failing state, when the failure is caught, prints one diagnostic
    and leads to the next connect attempt. *)
Lemma step_failure_reported (w : world) (s : state) :
  catchable w ->
  fails py w s ->
  exists n line, snd (step py w s) = Disconnected (S n)
                 /\ In (Print line) (fst (step py w s)).
Proof.
  intros [Hconn Hrecv]. destruct s as [n | n k | e]; simpl; [ | | intros []].
  - intros [e Hc]. rewrite Hc. unfold outer_except. rewrite (Hconn n e Hc).
    exists n. eexists. split; [reflexivity | ]. simpl. right. left. reflexivity.
  - intros [e Hr]. unfold inner_iteration. rewrite Hr.
    destruct (isinstance e ConnectionClosed).
    + exists n. eexists. split; [reflexivity | ]. simpl. right. left. reflexivity.
    + assert (He : isinstance e Exception = true).
      { destruct (read_and_render_caught _ _ Hr) as [H | [_ H]].
        - apply (Hrecv n k e H).
        - exact H. }
      rewrite He. exists n. eexists. split; [reflexivity | ].
      simpl. right. left. reflexivity.
Qed.

(** As long as connect attempts fail with a caught exception, the client
    does nothing but connect, report and sleep. *)
Lemma run_retries (w : world) (k n : nat) :
  (forall i, i < k -> exists e, connect_at w (n + i) = ConnectRaises e
                                /\ outer_catches e = true) ->
  run py w k (Disconnected n) = (retries k, Disconnected (n + k)).
Proof.
  revert n. induction k as [ | k IH]; intros n H.
  - simpl. rewrite Nat.add_0_r. reflexivity.
  - destruct (H 0 ltac:(lia)) as [e [Hc Ho]]. rewrite Nat.add_0_r in Hc.
    rewrite run_S, (step_connect_caught w n e Hc Ho). simpl fst. simpl snd.
    rewrite (IH (S n)).
    + simpl. replace (n + S k) with (S (n + k)) by lia. reflexivity.
    + intros i Hi. destruct (H (S i) ltac:(lia)) as [e' He'].
      exists e'. replace (S n + i) with (n + S i) by lia. exact He'.
Qed.

Lemma step_permitted (w : world) (s : state) :
  forallb permitted (fst (step py w s)) = true.
Proof.
  destruct s as [n | n k | e]; simpl; [ | | reflexivity].
  - destruct (connect_at w n) as [ | e]; [reflexivity | ].
    unfold outer_except. destruct (outer_catches e); reflexivity.
  - unfold inner_iteration.
    destruct (read_and_render py (recv_at w n k)) as [line | e]; [reflexivity | ].
    destruct (isinstance e ConnectionClosed); [reflexivity | ].
    destruct (isinstance e Exception); [reflexivity | ].
    unfold outer_except. destruct (outer_catches e); reflexivity.
Qed.

End Properties.

(** A world from a script of catchable entries is catchable. *)
Lemma scripted_catchable (script : list (connect_result * list recv_result)) :
  catchable_script script = true -> catchable (scripted script).
Proof.
  unfold catchable_script. rewrite forallb_forall. intros H. split.
  - intros n e. simpl.
    destruct (nth_in_or_default n script (ConnectRaises refused, [])) as [Hin | Hd].
    + apply H in Hin. apply andb_prop in Hin as [Hc _].
      intros Heq. rewrite Heq in Hc. exact Hc.
    + rewrite Hd. simpl. intros Heq. injection Heq as <-. reflexivity.
  - intros n k e. simpl.
    destruct (nth_in_or_default n script (ConnectRaises refused, [])) as [Hin | Hd].
    + apply H in Hin. apply andb_prop in Hin as [_ Hr].
      rewrite forallb_forall in Hr.
      destruct (nth_in_or_default k
                  (snd (nth n script (ConnectRaises refused, []))) (RecvRaises closed_ok))
        as [Hin' | Hd'].
      * apply Hr in Hin'. intros Heq. rewrite Heq in Hin'. exact Hin'.
      * rewrite Hd'. intros Heq. injection Heq as <-. reflexivity.
    + rewrite Hd. simpl. destruct k; intros Heq; injection Heq as <-; reflexivity.
Qed.

(** * The specification, sentence by sentence *)

(** ** Rendering *)

(** C1, as stated, fails.  The frame is JSON for an object with both keys,
    but the value of [type] is a surrogate with no partner, which standard
    output cannot encode: [print] raises inside the inner [try], the
    second handler takes the exception, and the client prints a diagnostic
    and drops the connection instead of printing the line. *)
Lemma unencodable_line_not_printed :
  recv_at (scripted [(Established, [Frame frame_surrogate])]) 0 0 = Frame frame_surrogate
  /\ json_loads sample_py frame_surrogate
     = inr (PyDict [("type", PyStr lone_surrogate); ("message", PyStr "x")])
  /\ step sample_py (scripted [(Established, [Frame frame_surrogate])]) (Connected 0 0)
     = ([Recv;
         Print ("An error occurred: 'utf-8' codec can't encode character '\ud800' "
                ++ "in position 1: surrogates not allowed");
         Close],
        Disconnected 1).
Proof. repeat split. Qed.

(** C1, amended.  A frame whose text is JSON for an object with the keys
    [type] (value [T]) and [message] (value [M]), and whose line [[T] M]
    standard output can encode, makes the client print that one line and
    stay connected, ready to receive the next frame.  When both values are
    strings, the line is made of the two strings as they are; other
    values are shown as [str] shows them. *)
Theorem wellformed_frame_printed
    (py : runtime) (w : world) (n k : nat)
    (frame : string) (items : list (string * pyobj)) (T M : pyobj) :
  recv_at w n k = Frame frame ->
  json_loads py frame = inr (PyDict items) ->
  dict_get items "type" = Some T ->
  dict_get items "message" = Some M ->
  encode_error py ("[" ++ py_str py T ++ "] " ++ py_str py M) = None ->
  step py w (Connected n k)
  = ([Recv; Print ("[" ++ py_str py T ++ "] " ++ py_str py M)], Connected n (S k))
  /\ (forall t m : string,
         T = PyStr t -> M = PyStr m ->
         step py w (Connected n k)
         = ([Recv; Print ("[" ++ t ++ "] " ++ m)], Connected n (S k)))
  /\ (T = PyList [PyInt (-7); PyNone; PyBool false; PyStr "a"] ->
      M = PyDict [("k", PyBool true); ("f", PyFloat "1.5")] ->
      step py w (Connected n k)
      = ([Recv;
          Print ("[[-7, None, False, " ++ str_repr py "a" ++ "]] {"
                 ++ str_repr py "k" ++ ": True, " ++ str_repr py "f" ++ ": 1.5}")],
         Connected n (S k))).
Proof.
  intros Hr Hl Ht Hm Henc.
  assert (Hstep : step py w (Connected n k)
                  = ([Recv; Print ("[" ++ py_str py T ++ "] " ++ py_str py M)],
                     Connected n (S k))).
  { unfold step, inner_iteration.
    rewrite Hr, (render_wellformed py frame items T M Hl Ht Hm).
    unfold print_line. rewrite Henc. reflexivity. }
  split; [exact Hstep | ]. split.
  - intros t m -> ->. exact Hstep.
  - intros -> ->. rewrite Hstep. repeat first [rewrite append_assoc | progress simpl].
    reflexivity.
Qed.

Lemma wellformed_frame_printed_witness :
  recv_at world_error_then_close 0 0 = Frame frame_error
  /\ step sample_py world_error_then_close (Connected 0 0)
     = ([Recv; Print "[ERROR] disk full"], Connected 0 1)
  /\ step sample_py (scripted [(Established, [Frame frame_nested])]) (Connected 0 0)
     = ([Recv; Print "[[-7, None, False, 'a']] {'k': True, 'f': 1.5}"], Connected 0 1).
Proof.
  split; [reflexivity | ]. split.
  - apply (wellformed_frame_printed sample_py world_error_then_close 0 0 frame_error
             [("type", PyStr "ERROR"); ("message", PyStr "disk full")]
             (PyStr "ERROR") (PyStr "disk full")
             eq_refl eq_refl eq_refl eq_refl eq_refl).
  - apply (wellformed_frame_printed sample_py
             (scripted [(Established, [Frame frame_nested])]) 0 0 frame_nested
             [("type", PyList [PyInt (-7); PyNone; PyBool false; PyStr "a"]);
              ("message", PyDict [("k", PyBool true); ("f", PyFloat "1.5")])]
             (PyList [PyInt (-7); PyNone; PyBool false; PyStr "a"])
             (PyDict [("k", PyBool true); ("f", PyFloat "1.5")])
             eq_refl eq_refl eq_refl eq_refl eq_refl); reflexivity.
Defined.

(** C10, as stated, fails.  The frame is JSON for an object with both
    keys, [type] being a number, but the value of [message] is a
    surrogate with no partner: the event is not rendered.  No check of a
    type rejects it; [print] does, on the line it cannot encode. *)
Lemma unencodable_value_not_rendered :
  recv_at (scripted [(Established, [Frame frame_number_surrogate])]) 0 0
  = Frame frame_number_surrogate
  /\ json_loads sample_py frame_number_surrogate
     = inr (PyDict [("type", PyInt 1); ("message", PyStr lone_surrogate)])
  /\ inner_iteration sample_py (Frame frame_number_surrogate)
     = ([Recv;
         Print ("An error occurred: 'utf-8' codec can't encode character '\ud800' "
                ++ "in position 4: surrogates not allowed")],
        Break).
Proof. repeat split. Qed.

(** C10, amended.  Decoding checks no type: whenever the frame is JSON for
    an object with both keys, whatever the two values are, the two lookups
    succeed, and nothing but [print] on a line that standard output cannot
    encode can keep the event from being rendered.  When the line can be
    encoded it is printed; the frame [{"type": 1, "message": 2}] gives
    [[1] 2]. *)
Theorem fields_not_type_checked
    (py : runtime) (w : world) (n k : nat)
    (frame : string) (items : list (string * pyobj)) (T M : pyobj) :
  recv_at w n k = Frame frame ->
  json_loads py frame = inr (PyDict items) ->
  dict_get items "type" = Some T ->
  dict_get items "message" = Some M ->
  (getitem py (PyDict items) "type" = Ok T /\ getitem py (PyDict items) "message" = Ok M)
  /\ (forall e : exn,
         read_and_render py (recv_at w n k) = Raise e ->
         class_of e = UnicodeEncodeError
         /\ encode_error py ("[" ++ py_str py T ++ "] " ++ py_str py M) = Some (exn_str e))
  /\ (encode_error py ("[" ++ py_str py T ++ "] " ++ py_str py M) = None ->
      read_and_render py (recv_at w n k) = Ok ("[" ++ py_str py T ++ "] " ++ py_str py M)
      /\ inner_iteration py (recv_at w n k)
         = ([Recv; Print ("[" ++ py_str py T ++ "] " ++ py_str py M)], Continue)
      /\ (T = PyInt 1 -> M = PyInt 2 ->
          step py w (Connected n k) = ([Recv; Print "[1] 2"], Connected n (S k)))).
Proof.
  intros Hr Hl Ht Hm.
  pose proof (render_wellformed py frame items T M Hl Ht Hm) as Hrender.
  rewrite Hr, Hrender. unfold print_line. split; [ | split].
  - unfold getitem. rewrite Ht, Hm. split; reflexivity.
  - intros e. destruct (encode_error py _) as [msg | ]; [ | discriminate].
    intros H. injection H as <-. split; reflexivity.
  - intros Henc. rewrite Henc. split; [reflexivity | ]. split.
    + unfold inner_iteration. rewrite Hrender. unfold print_line. rewrite Henc.
      reflexivity.
    + intros -> ->. unfold step, inner_iteration.
      rewrite Hr, Hrender. unfold print_line. rewrite Henc. reflexivity.
Qed.

Lemma fields_not_type_checked_witness :
  recv_at world_mixed 3 0 = Frame frame_numbers
  /\ json_loads sample_py frame_numbers = inr (PyDict [("type", PyInt 1); ("message", PyInt 2)])
  /\ step sample_py world_mixed (Connected 3 0) = ([Recv; Print "[1] 2"], Connected 3 1).
Proof.
  split; [reflexivity | ]. split; [reflexivity | ].
  apply (fields_not_type_checked sample_py world_mixed 3 0 frame_numbers
           [("type", PyInt 1); ("message", PyInt 2)] (PyInt 1) (PyInt 2)
           eq_refl eq_refl eq_refl eq_refl); reflexivity.
Defined.

(** ** Malformed frames *)

(** C2. A frame that is not JSON, or is JSON without the field [type] or
    the field [message], does not end the client: one diagnostic line is
    printed, which is no line of the form [[T] M], the socket is closed and
    the client is back at the top of the outer loop. *)
Theorem malformed_frame_dropped
    (py : runtime) (w : world) (n k : nat) (frame : string) :
  recv_at w n k = Frame frame ->
  wellformed py frame = false ->
  exists diagnostic : string,
    step py w (Connected n k)
    = ([Recv; Print ("An error occurred: " ++ diagnostic); Close], Disconnected (S n))
    /\ forall T M : string, "An error occurred: " ++ diagnostic <> "[" ++ T ++ "] " ++ M.
Proof.
  intros Hr Hbad.
  destruct (render_malformed py frame Hbad) as [e [Hraise [Hclosed Hexc]]].
  exists (exn_str e). split.
  - apply step_break_error; [rewrite Hr; exact Hraise | exact Hclosed | exact Hexc].
  - intros T M H. discriminate H.
Qed.

Lemma malformed_frame_dropped_witness :
  recv_at world_mixed 1 0 = Frame frame_untyped
  /\ wellformed sample_py frame_untyped = false
  /\ exists diagnostic : string,
       step sample_py world_mixed (Connected 1 0)
       = ([Recv; Print ("An error occurred: " ++ diagnostic); Close], Disconnected 2)
       /\ forall T M : string, "An error occurred: " ++ diagnostic <> "[" ++ T ++ "] " ++ M.
Proof.
  split; [reflexivity | ]. split; [reflexivity | ].
  apply (malformed_frame_dropped sample_py world_mixed 1 0 frame_untyped eq_refl eq_refl).
Defined.

(** ** Connection failures and the delay *)

(** C3, as stated, fails.  An established connection is lost without a
    close frame: [recv] raises [ConnectionClosedError], the inner handler
    for [ConnectionClosed] takes it, and the next connect attempt follows
    the close with no sleep in between. *)
Lemma abrupt_close_not_delayed :
  connect_at world_abrupt 0 = Established
  /\ recv_at world_abrupt 0 1 = RecvRaises closed_abruptly
  /\ class_of closed_abruptly = ConnectionClosedError
  /\ run sample_py world_abrupt 2 (Connected 0 1)
     = ([Recv; Print "Connection closed."; Close; Connect uri], Connected 1 0)
  /\ forall d : Z, ~ In (Sleep d) (fst (run sample_py world_abrupt 2 (Connected 0 1))).
Proof.
  repeat split.
  intros d H. simpl in H.
  destruct H as [H | [H | [H | [H | []]]]]; discriminate H.
Qed.

(** C3, amended.  A connect attempt that fails with an [OSError] (the
    peer is unreachable) or a [ConnectionClosedError] is followed by the
    report and a sleep of five seconds, and then by the next connect
    attempt.  This holds at every attempt [n]: no count of attempts stops
    the retry. *)
Theorem connect_failure_delayed
    (py : runtime) (w : world) (n : nat) (e : exn) :
  connect_at w n = ConnectRaises e ->
  isinstance e OSError = true \/ isinstance e ConnectionClosedError = true ->
  snd (step py w (Disconnected n)) = Disconnected (S n)
  /\ exists rest : list event,
       fst (run py w 2 (Disconnected n))
       = ([Connect uri; Print "Connection failed. Retrying in 5 seconds..."; Sleep 5;
           Connect uri] ++ rest)%list.
Proof.
  intros Hc Hclass.
  assert (Ho : outer_catches e = true).
  { unfold outer_catches. destruct Hclass as [H | H]; rewrite H.
    - reflexivity.
    - apply orb_true_r. }
  pose proof (step_connect_caught py w n e Hc Ho) as Hstep.
  split; [rewrite Hstep; reflexivity | ].
  destruct (step_disconnected_first py w (S n)) as [rest Hrest].
  exists rest. rewrite run_2, Hstep. simpl snd. rewrite Hrest. reflexivity.
Qed.

Lemma connect_failure_delayed_witness :
  connect_at world_late_server 1 = ConnectRaises refused
  /\ snd (step sample_py world_late_server (Disconnected 1)) = Disconnected 2
  /\ exists rest : list event,
       fst (run sample_py world_late_server 2 (Disconnected 1))
       = ([Connect uri; Print "Connection failed. Retrying in 5 seconds..."; Sleep 5;
           Connect uri] ++ rest)%list.
Proof.
  split; [reflexivity | ].
  apply (connect_failure_delayed sample_py world_late_server 1 refused eq_refl).
  left. reflexivity.
Defined.

(** C5, as stated, fails.  The server is down once, then answers the
    handshake with an HTTP error: [connect] raises [InvalidStatus], an
    [InvalidHandshake], which the outer handler does not name.  There is
    no retry and no delay; the exception leaves [listen]. *)
Lemma handshake_failure_not_retried :
  connect_at world_down_then_rejecting 1 = ConnectRaises rejected
  /\ isinstance rejected InvalidHandshake = true
  /\ step sample_py world_down_then_rejecting (Disconnected 1)
     = ([Connect uri; Uncaught rejected], Terminated rejected).
Proof. repeat split. Qed.

(** C5, amended.  Every failure of [connect] that is an [OSError] (the
    peer at the fixed address is unreachable) or a [ConnectionClosedError]
    is taken by the outer handler, which reports it, sleeps five seconds
    and lets the outer loop go round. *)
Theorem caught_connect_failure_retried
    (py : runtime) (w : world) (n : nat) (e : exn) :
  connect_at w n = ConnectRaises e ->
  isinstance e OSError = true \/ isinstance e ConnectionClosedError = true ->
  outer_except n e
  = ([Print "Connection failed. Retrying in 5 seconds..."; Sleep 5], Disconnected (S n))
  /\ step py w (Disconnected n)
     = ([Connect uri; Print "Connection failed. Retrying in 5 seconds..."; Sleep 5],
        Disconnected (S n)).
Proof.
  intros Hc Hclass.
  assert (Ho : outer_catches e = true).
  { unfold outer_catches. destruct Hclass as [H | H]; rewrite H.
    - reflexivity.
    - apply orb_true_r. }
  split.
  - unfold outer_except. rewrite Ho. reflexivity.
  - apply (step_connect_caught py w n e Hc Ho).
Qed.

Lemma caught_connect_failure_retried_witness :
  connect_at world_down_then_rejecting 0 = ConnectRaises refused
  /\ step sample_py world_down_then_rejecting (Disconnected 0)
     = ([Connect uri; Print "Connection failed. Retrying in 5 seconds..."; Sleep 5],
        Disconnected 1).
Proof.
  split; [reflexivity | ].
  apply (caught_connect_failure_retried sample_py world_down_then_rejecting 0 refused eq_refl).
  left. reflexivity.
Defined.

(** C6, as stated, fails.  The server has been down twice and then
    answers the handshake with an HTTP error: the connection cannot be
    established, yet the client neither waits nor tries again.  The
    exception leaves [listen], and however long one looks there is no
    further attempt. *)
Lemma handshake_failure_not_waited_for :
  connect_at (scripted [(ConnectRaises refused, []); (ConnectRaises refused, []);
                        (ConnectRaises rejected, [])]) 2
  = ConnectRaises rejected
  /\ forall fuel : nat,
       listen sample_py
         (scripted [(ConnectRaises refused, []); (ConnectRaises refused, []);
                    (ConnectRaises rejected, [])])
         (3 + fuel)
       = ((retries 2 ++ [Connect uri; Uncaught rejected])%list, Terminated rejected).
Proof.
  split; [reflexivity | ].
  intros fuel. unfold listen. rewrite run_app.
  replace (run sample_py _ 3 initial)
    with ((retries 2 ++ [Connect uri; Uncaught rejected])%list, Terminated rejected)
    by reflexivity.
  cbn [fst snd]. rewrite (run_terminated sample_py). rewrite app_nil_r. reflexivity.
Qed.

(** C6, amended.  While connect attempts fail with an [OSError] (the peer
    is unreachable) or a [ConnectionClosedError], every attempt is
    followed by the report and a sleep of five seconds, and then by the
    next attempt.  This goes on for as long as the attempts fail so:
    whatever the attempt [n] the client is at and whatever the number [k]
    of such attempts that follow, it has done exactly that [k] times and
    is about to connect again. *)
Theorem unreachable_peer_retried_forever
    (py : runtime) (w : world) (n k : nat) :
  (forall i : nat, i < k ->
     exists e : exn,
       connect_at w (n + i) = ConnectRaises e
       /\ (isinstance e OSError = true \/ isinstance e ConnectionClosedError = true)) ->
  run py w k (Disconnected n) = (retries k, Disconnected (n + k)).
Proof.
  intros H. apply (run_retries py w k n).
  intros i Hi. destruct (H i Hi) as [e [Hc Hclass]].
  exists e. split; [exact Hc | ]. unfold outer_catches.
  destruct Hclass as [Hos | Hce]; [rewrite Hos; reflexivity | rewrite Hce; apply orb_true_r].
Qed.

Lemma unreachable_peer_retried_forever_witness :
  run sample_py world_unreachable 3 initial
  = ([Connect uri; Print "Connection failed. Retrying in 5 seconds..."; Sleep 5;
      Connect uri; Print "Connection failed. Retrying in 5 seconds..."; Sleep 5;
      Connect uri; Print "Connection failed. Retrying in 5 seconds..."; Sleep 5],
     Disconnected 3).
Proof.
  apply (unreachable_peer_retried_forever sample_py world_unreachable 0 3).
  intros i Hi. exists refused. split; [ | left; reflexivity].
  destruct i; reflexivity.
Defined.

(** C7.  When the peer closes the connection cleanly, the client prints
    [Connection closed.], closes the socket and makes the next connect
    attempt with nothing in between.  It sleeps only in the transition of
    a failed connect attempt, and then for five seconds. *)
Theorem clean_close_reconnects_at_once
    (py : runtime) (w : world) (n k : nat) (e : exn) :
  recv_at w n k = RecvRaises e ->
  isinstance e ConnectionClosedOK = true ->
  step py w (Connected n k) = ([Recv; Print "Connection closed."; Close], Disconnected (S n))
  /\ (exists rest : list event,
         fst (run py w 2 (Connected n k))
         = [Recv; Print "Connection closed."; Close; Connect uri] ++ rest)%list
  /\ (forall (s : state) (d : Z),
         In (Sleep d) (fst (step py w s)) ->
         d = 5%Z /\ exists m e', s = Disconnected m /\ connect_at w m = ConnectRaises e').
Proof.
  intros Hr Hok.
  assert (Hstep : step py w (Connected n k)
                  = ([Recv; Print "Connection closed."; Close], Disconnected (S n))).
  { apply (step_break_closed py w n k e).
    - rewrite Hr. reflexivity.
    - apply closed_ok_is_closed. exact Hok. }
  split; [exact Hstep | ]. split.
  - destruct (step_disconnected_first py w (S n)) as [rest Hrest].
    exists rest. rewrite run_2, Hstep. simpl snd. rewrite Hrest. reflexivity.
  - intros s d. apply sleep_only_after_failed_connect.
Qed.

Lemma clean_close_reconnects_at_once_witness :
  recv_at world_error_then_close 0 1 = RecvRaises closed_ok
  /\ step sample_py world_error_then_close (Connected 0 1)
     = ([Recv; Print "Connection closed."; Close], Disconnected 1).
Proof.
  split; [reflexivity | ].
  apply (clean_close_reconnects_at_once sample_py world_error_then_close 0 1 closed_ok
           eq_refl eq_refl).
Defined.

(** C9.  When receiving or decoding a frame raises an [Exception] that is
    no [ConnectionClosed], the client prints the error, leaves the inner
    loop, closes the socket and makes the next connect attempt with
    nothing in between; it sleeps after that attempt only if the attempt
    itself raises. *)
Theorem decode_error_reconnects_at_once
    (py : runtime) (w : world) (n k : nat) (e : exn) :
  read_and_render py (recv_at w n k) = Raise e ->
  isinstance e ConnectionClosed = false ->
  isinstance e Exception = true ->
  step py w (Connected n k)
  = ([Recv; Print ("An error occurred: " ++ exn_str e); Close], Disconnected (S n))
  /\ (exists rest : list event,
         fst (run py w 2 (Connected n k))
         = [Recv; Print ("An error occurred: " ++ exn_str e); Close; Connect uri] ++ rest)%list
  /\ (forall d : Z,
         In (Sleep d) (fst (step py w (Disconnected (S n)))) ->
         exists e', connect_at w (S n) = ConnectRaises e').
Proof.
  intros Hr Hclosed Hexc.
  pose proof (step_break_error py w n k e Hr Hclosed Hexc) as Hstep.
  split; [exact Hstep | ]. split.
  - destruct (step_disconnected_first py w (S n)) as [rest Hrest].
    exists rest. rewrite run_2, Hstep. simpl snd. rewrite Hrest. reflexivity.
  - intros d Hd.
    destruct (sleep_only_after_failed_connect py w _ d Hd) as [_ [m [e' [Hs Hc]]]].
    injection Hs as <-. exists e'. exact Hc.
Qed.

Lemma decode_error_reconnects_at_once_witness :
  read_and_render sample_py (recv_at world_mixed 0 0)
  = Raise (mk_exn JSONDecodeError "Expecting value: line 1 column 1 (char 0)")
  /\ step sample_py world_mixed (Connected 0 0)
     = ([Recv; Print "An error occurred: Expecting value: line 1 column 1 (char 0)"; Close],
        Disconnected 1).
Proof.
  split; [reflexivity | ].
  apply (decode_error_reconnects_at_once sample_py world_mixed 0 0
           (mk_exn JSONDecodeError "Expecting value: line 1 column 1 (char 0)")
           eq_refl eq_refl eq_refl).
Defined.

(** ** Running forever *)

(** C4, as stated, fails.  The server answers the first handshake with an
    HTTP error: [connect] raises [InvalidStatus], no handler takes it, and
    [listen] ends with that exception after one connect attempt. *)
Lemma handshake_failure_ends_client :
  connect_at world_rejecting 0 = ConnectRaises rejected
  /\ isinstance rejected InvalidHandshake = true
  /\ listen sample_py world_rejecting 1
     = ([Connect uri; Uncaught rejected], Terminated rejected).
Proof. repeat split. Qed.

(** C4, amended.  In a world where every failure of [connect] is an
    [OSError] or a [ConnectionClosedError] and every failure of [recv] is
    an [Exception], the client never ends: after any number of transitions
    it is still in the loop, and every failure during connect, receive or
    decode is caught, printed as a diagnostic line and followed by the
    next connect attempt. *)
Theorem catchable_failures_never_end_client
    (py : runtime) (w : world) :
  catchable w ->
  (forall fuel : nat, is_terminated (snd (listen py w fuel)) = false)
  /\ (forall s : state,
         fails py w s ->
         exists (n : nat) (line : string),
           snd (step py w s) = Disconnected (S n)
           /\ In (Print line) (fst (step py w s))).
Proof.
  intros Hw. split.
  - intros fuel. unfold listen. apply run_alive; [exact Hw | reflexivity].
  - intros s. apply step_failure_reported. exact Hw.
Qed.

Lemma catchable_failures_never_end_client_witness :
  catchable world_mixed
  /\ is_terminated (snd (listen sample_py world_mixed 12)) = false.
Proof.
  assert (Hw : catchable world_mixed) by (apply scripted_catchable; reflexivity).
  split; [exact Hw | ].
  apply (proj1 (catchable_failures_never_end_client sample_py world_mixed Hw) 12).
Defined.

(** ** The socket is only read *)

(** C8.  Whatever the world does and however long the client runs, from
    any state, it never sends: every event is permitted, which means no
    [Send], and a [Connect] only to the fixed address. *)
Theorem never_sends (py : runtime) (w : world) (fuel : nat) (s : state) :
  forallb permitted (fst (run py w fuel s)) = true.
Proof.
  revert s. induction fuel as [ | fuel IH]; intros s.
  - reflexivity.
  - rewrite run_S. simpl fst. rewrite forallb_app, step_permitted, IH. reflexivity.
Qed.

(** * Further properties of [listen] *)

Lemma not_exception_not_caught (e : exn) :
  isinstance e Exception = false ->
  isinstance e ConnectionClosed = false /\ outer_catches e = false.
Proof.
  unfold outer_catches. destruct e as [c msg]; destruct c; simpl; intros H;
    try discriminate H; split; reflexivity.
Qed.

Lemma count_app (p : event -> bool) (l l' : list event) :
  count p (l ++ l')%list = count p l + count p l'.
Proof. unfold count. rewrite filter_app, length_app. reflexivity. Qed.

Lemma established_before_S (w : world) (m : nat) :
  established_before w (S m)
  = established_before w m + (if is_established (connect_at w m) then 1 else 0).
Proof.
  unfold established_before. rewrite seq_S, map_app, filter_app, length_app. simpl.
  destruct (is_established (connect_at w m)); reflexivity.
Qed.

Section Runs.

Variable py : runtime.

(** While frames decode, the client stays on the connection. *)
Lemma run_frames (w : world) (n k j : nat) :
  (forall i, i < k -> exists line, read_and_render py (recv_at w n (j + i)) = Ok line) ->
  run py w k (Connected n j) = (lines py w n j k, Connected n (j + k)).
Proof.
  revert j. induction k as [ | k IH]; intros j H.
  - simpl. rewrite Nat.add_0_r. reflexivity.
  - destruct (H 0 ltac:(lia)) as [line Hline]. rewrite Nat.add_0_r in Hline.
    rewrite run_S.
    assert (Hstep : step py w (Connected n j)
                    = ([Recv; Print (line_at py w n j)], Connected n (S j))).
    { unfold step, inner_iteration, line_at. rewrite Hline. reflexivity. }
    rewrite Hstep. simpl fst. simpl snd. rewrite (IH (S j)).
    + unfold lines. simpl. replace (j + S k) with (S j + k) by lia. reflexivity.
    + intros i Hi. destruct (H (S i) ltac:(lia)) as [l Hl].
      exists l. replace (S j + i) with (j + S i) by lia. exact Hl.
Qed.

(** One transition keeps every socket accounted for. *)
Lemma step_accounted (w : world) (c a : nat) (s : state) :
  accounted w c a s ->
  accounted w (c + count is_close (fst (step py w s)))
              (a + count is_connect (fst (step py w s)))
              (snd (step py w s)).
Proof.
  unfold accounted. destruct s as [m | m k | e].
  - intros [Hc ->]. cbn [open_sockets] in Hc. unfold step.
    destruct (connect_at w m) as [ | e] eqn:Hconn.
    + cbn. replace (m + 1) with (S m) by lia.
      rewrite established_before_S, Hconn. cbn. repeat split; try lia; try exact Hconn.
    + unfold outer_except. destruct (outer_catches e); cbn;
        replace (m + 1) with (S m) by lia;
        rewrite established_before_S, Hconn; cbn; split; try lia; trivial.
  - intros [Hc [-> Hconn]]. cbn [open_sockets] in Hc. unfold step, inner_iteration.
    destruct (read_and_render py (recv_at w m k)) as [line | e].
    + cbn [fst snd count filter length is_close is_connect open_sockets app].
      rewrite !Nat.add_0_r. repeat split; try lia; try exact Hconn.
    + destruct (isinstance e ConnectionClosed).
      { cbn [fst snd count filter length is_close is_connect open_sockets app].
        rewrite !Nat.add_0_r. split; lia. }
      destruct (isinstance e Exception).
      { cbn [fst snd count filter length is_close is_connect open_sockets app].
        rewrite !Nat.add_0_r. split; lia. }
      unfold outer_except. destruct (outer_catches e);
        cbn [fst snd count filter length is_close is_connect open_sockets app];
        rewrite !Nat.add_0_r; split; try lia; trivial.
  - intros [Hc _]. cbn [fst snd step count filter length is_close is_connect open_sockets].
    cbn [open_sockets] in Hc. rewrite !Nat.add_0_r. split; [lia | trivial].
Qed.

Lemma run_accounted (w : world) (fuel : nat) (c a : nat) (s : state) :
  accounted w c a s ->
  accounted w (c + count is_close (fst (run py w fuel s)))
              (a + count is_connect (fst (run py w fuel s)))
              (snd (run py w fuel s)).
Proof.
  revert c a s. induction fuel as [ | fuel IH]; intros c a s H.
  - simpl. unfold count. simpl. rewrite !Nat.add_0_r. exact H.
  - rewrite run_S. simpl fst. simpl snd. rewrite !count_app, !Nat.add_assoc.
    apply IH. apply step_accounted. exact H.
Qed.

(** In a world of catchable failures, one transition prints one line for
    each receive and one for each sleep. *)
Lemma step_prints (w : world) (s : state) :
  catchable w ->
  count is_print (fst (step py w s))
  = count is_recv (fst (step py w s)) + count is_sleep (fst (step py w s)).
Proof.
  intros [Hconn Hrecv]. destruct s as [n | n k | e]; simpl; [ | | reflexivity].
  - destruct (connect_at w n) as [ | e] eqn:Hc; [reflexivity | ].
    unfold outer_except. rewrite (Hconn n e Hc). reflexivity.
  - unfold inner_iteration.
    destruct (read_and_render py (recv_at w n k)) as [line | e] eqn:Hr; [reflexivity | ].
    destruct (isinstance e ConnectionClosed); [reflexivity | ].
    assert (He : isinstance e Exception = true).
    { destruct (read_and_render_caught py _ _ Hr) as [H | [_ H]].
      - apply (Hrecv n k e H).
      - exact H. }
    rewrite He. reflexivity.
Qed.

(** A transition looks at the world only at the attempt of its state. *)
Lemma step_same_from (w w' : world) (n : nat) (s : state) :
  (forall m, n <= m -> connect_at w m = connect_at w' m) ->
  (forall m j, n <= m -> recv_at w m j = recv_at w' m j) ->
  from_attempt n s ->
  step py w s = step py w' s /\ from_attempt n (snd (step py w s)).
Proof.
  intros Hconn Hrecv. destruct s as [m | m k | e]; simpl; intros Hm.
  - rewrite <- (Hconn m Hm). split; [reflexivity | ].
    destruct (connect_at w m) as [ | e]; simpl; [exact Hm | ].
    unfold outer_except. destruct (outer_catches e); simpl; [lia | trivial].
  - rewrite <- (Hrecv m k Hm). split; [reflexivity | ].
    destruct (inner_iteration py (recv_at w m k)) as [evs [ | | e]]; simpl; [exact Hm | lia | ].
    unfold outer_except. destruct (outer_catches e); simpl; [lia | trivial].
  - split; trivial.
Qed.

Lemma run_same_from (w w' : world) (n fuel : nat) (s : state) :
  (forall m, n <= m -> connect_at w m = connect_at w' m) ->
  (forall m j, n <= m -> recv_at w m j = recv_at w' m j) ->
  from_attempt n s ->
  run py w fuel s = run py w' fuel s.
Proof.
  intros Hconn Hrecv. revert s. induction fuel as [ | fuel IH]; intros s Hs.
  - reflexivity.
  - destruct (step_same_from w w' n s Hconn Hrecv Hs) as [Heq Hnext].
    rewrite !run_S, <- Heq, (IH _ Hnext). reflexivity.
Qed.

(** A failed receive or decode leaves the connection for good. *)
Lemma step_failed_moves_on (w : world) (n k : nat) (e : exn) :
  read_and_render py (recv_at w n k) = Raise e ->
  from_attempt (S n) (snd (step py w (Connected n k))).
Proof.
  intros Hr. unfold step, inner_iteration. rewrite Hr.
  destruct (isinstance e ConnectionClosed); simpl; [lia | ].
  destruct (isinstance e Exception); simpl; [lia | ].
  unfold outer_except. destruct (outer_catches e); simpl; [lia | trivial].
Qed.

End Runs.

(** ** Leaving [listen] *)

(** X1.  When [recv] raises something that is not an [Exception] (a
    cancellation, a keyboard interrupt), neither inner handler takes it:
    nothing is printed, the socket is still closed on the way out of
    [async with], the outer handler does not take it either, and it leaves
    [listen]. *)
Theorem interruption_closes_socket_then_leaves
    (py : runtime) (w : world) (n k : nat) (e : exn) :
  recv_at w n k = RecvRaises e ->
  isinstance e Exception = false ->
  step py w (Connected n k) = ([Recv; Close; Uncaught e], Terminated e).
Proof.
  intros Hr He. destruct (not_exception_not_caught e He) as [Hclosed Houter].
  unfold step, inner_iteration. rewrite Hr. simpl.
  rewrite Hclosed, He. unfold outer_except. rewrite Houter. reflexivity.
Qed.

Lemma interruption_closes_socket_then_leaves_witness :
  recv_at world_cancelled 0 1 = RecvRaises cancelled
  /\ step sample_py world_cancelled (Connected 0 1)
     = ([Recv; Close; Uncaught cancelled], Terminated cancelled).
Proof.
  split; [reflexivity | ].
  apply (interruption_closes_socket_then_leaves sample_py world_cancelled 0 1 cancelled
           eq_refl eq_refl).
Defined.

(** X2.  Nothing the peer sends ends the client.  Whatever the text of a
    frame, the client either prints a line and stays connected, or prints
    the diagnostic of the second handler, closes the socket and goes back
    to connect: no failure of [json.loads], of a lookup or of [print] on
    the line leaves [listen]. *)
Theorem no_frame_ends_client
    (py : runtime) (w : world) (n k : nat) (frame : string) :
  recv_at w n k = Frame frame ->
  (exists line : string,
      step py w (Connected n k) = ([Recv; Print line], Connected n (S k)))
  \/ (exists diagnostic : string,
         step py w (Connected n k)
         = ([Recv; Print ("An error occurred: " ++ diagnostic); Close], Disconnected (S n))).
Proof.
  intros Hr.
  destruct (read_and_render py (recv_at w n k)) as [line | e] eqn:Hrender.
  - left. exists line. unfold step, inner_iteration. rewrite Hrender. reflexivity.
  - right. exists (exn_str e).
    destruct (read_and_render_caught py _ _ Hrender) as [H | [Hclosed Hexc]].
    + rewrite Hr in H. discriminate H.
    + apply (step_break_error py w n k e Hrender Hclosed Hexc).
Qed.

Lemma no_frame_ends_client_witness :
  (exists line : string,
      step sample_py (scripted [(Established, [Frame frame_surrogate])]) (Connected 0 0)
      = ([Recv; Print line], Connected 0 1))
  \/ (exists diagnostic : string,
         step sample_py (scripted [(Established, [Frame frame_surrogate])]) (Connected 0 0)
         = ([Recv; Print ("An error occurred: " ++ diagnostic); Close], Disconnected 1)).
Proof.
  apply (no_frame_ends_client sample_py (scripted [(Established, [Frame frame_surrogate])])
           0 0 frame_surrogate eq_refl).
Defined.

(** ** The socket *)

(** X3.  No connection is left open behind.  At any point of any run,
    ended or not, the closes seen and the connection the client is on, if
    it is on one, add up to the number of connect attempts seen that
    opened a connection: every socket opened has been closed, but for the
    one in use. *)
Theorem closes_match_connections (py : runtime) (w : world) (fuel : nat) :
  count is_close (fst (listen py w fuel)) + open_sockets (snd (listen py w fuel))
  = established_before w (count is_connect (fst (listen py w fuel))).
Proof.
  unfold listen.
  exact (proj1 (run_accounted py w fuel 0 0 initial (conj eq_refl eq_refl))).
Qed.

(** X8.  Once receiving or decoding a frame has failed, what the peer
    would have sent next on that connection changes nothing: in two worlds
    that differ only there, the client does the same for ever. *)
Theorem frames_after_failure_ignored
    (py : runtime) (w w' : world) (n k : nat) :
  same_up_to w w' n k ->
  fails py w (Connected n k) ->
  forall fuel : nat, run py w fuel (Connected n k) = run py w' fuel (Connected n k).
Proof.
  intros [Hconn Hrecv] [e Hr] fuel. destruct fuel as [ | fuel]; [reflexivity | ].
  assert (Hstep : step py w' (Connected n k) = step py w (Connected n k)).
  { unfold step. rewrite <- (Hrecv n k (or_intror (le_n k))). reflexivity. }
  rewrite !run_S, Hstep.
  rewrite (run_same_from py w w' (S n) fuel (snd (step py w (Connected n k)))).
  - reflexivity.
  - intros m _. apply Hconn.
  - intros m j Hm. apply Hrecv. left. lia.
  - apply (step_failed_moves_on py w n k e Hr).
Qed.

Lemma frames_after_failure_ignored_witness :
  recv_at world_cut_short 0 2 <> recv_at world_cut_short' 0 2
  /\ run sample_py world_cut_short 6 (Connected 0 1)
     = run sample_py world_cut_short' 6 (Connected 0 1).
Proof.
  split; [discriminate | ].
  apply (frames_after_failure_ignored sample_py world_cut_short world_cut_short' 0 1).
  - split.
    + intros m. destruct m as [ | [ | m]]; reflexivity.
    + intros m j H. destruct m as [ | [ | m]].
      * destruct j as [ | [ | j]]; [reflexivity | reflexivity | ].
        destruct H as [H | H]; [now destruct H | lia].
      * reflexivity.
      * reflexivity.
  - eexists. reflexivity.
Defined.

(** ** Staying connected *)

(** X4.  As long as the inner [try] raises nothing, that is as long as
    the frames of a connection arrive, decode and have their lines
    printed, the client stays on it: [k] frames give [k] receives, each
    followed by its line, in the order of arrival, with no close, no sleep
    and no new connect. *)
Theorem decodable_frames_printed_in_order
    (py : runtime) (w : world) (n j k : nat) :
  (forall i : nat, i < k ->
     exists line : string, read_and_render py (recv_at w n (j + i)) = Ok line) ->
  run py w k (Connected n j) = (lines py w n j k, Connected n (j + k)).
Proof. apply run_frames. Qed.

Lemma decodable_frames_printed_in_order_witness :
  run sample_py world_mixed 2 (Connected 3 0)
  = ([Recv; Print "[1] 2"; Recv; Print "[INFO] started"], Connected 3 2).
Proof.
  apply (decodable_frames_printed_in_order sample_py world_mixed 3 0 2).
  intros i Hi. destruct i as [ | [ | i]]; [eexists; reflexivity | eexists; reflexivity | lia].
Defined.

(** X5.  A server that is down for [k] connect attempts and then up: the
    client reports and sleeps [k] times, connects, and prints the lines of
    the [m] frames that follow, in order, provided the inner [try] raises
    nothing on them (they arrive, decode and have their lines printed). *)
Theorem recovers_after_outage
    (py : runtime) (w : world) (k m : nat) :
  (forall i : nat, i < k ->
     exists e : exn, connect_at w i = ConnectRaises e /\ outer_catches e = true) ->
  connect_at w k = Established ->
  (forall i : nat, i < m ->
     exists line : string, read_and_render py (recv_at w k i) = Ok line) ->
  listen py w (k + (1 + m))
  = ((retries k ++ Connect uri :: lines py w k 0 m)%list, Connected k m).
Proof.
  intros Hdown Hup Hframes. unfold listen, initial.
  assert (Hstep : step py w (Disconnected k) = ([Connect uri], Connected k 0)).
  { unfold step. rewrite Hup. reflexivity. }
  rewrite run_app, (run_retries py w k 0 Hdown). cbn [fst snd].
  change (0 + k) with k. change (1 + m) with (S m).
  rewrite run_S, Hstep. cbn [fst snd].
  rewrite (run_frames py w k m 0 Hframes). reflexivity.
Qed.

Lemma recovers_after_outage_witness :
  listen sample_py world_late_server 4
  = ([Connect uri; Print "Connection failed. Retrying in 5 seconds..."; Sleep 5;
      Connect uri; Print "Connection failed. Retrying in 5 seconds..."; Sleep 5;
      Connect uri; Recv; Print "[INFO] started"],
     Connected 2 1).
Proof.
  apply (recovers_after_outage sample_py world_late_server 2 1).
  - intros i Hi. exists refused. split; [ | reflexivity].
    destruct i as [ | [ | i]]; [reflexivity | reflexivity | lia].
  - reflexivity.
  - intros i Hi. destruct i as [ | i]; [eexists; reflexivity | lia].
Defined.

(** ** What is printed *)

(** X6.  For a JSON object that lacks a field, the diagnostic names the
    first field the f-string looks up and does not find: [type] when
    [type] is missing, whether [message] is there or not, and [message]
    only when [type] is there. *)
Theorem first_missing_field_reported
    (py : runtime) (w : world) (n k : nat)
    (frame : string) (items : list (string * pyobj)) :
  recv_at w n k = Frame frame ->
  json_loads py frame = inr (PyDict items) ->
  dict_get items "type" = None \/ dict_get items "message" = None ->
  step py w (Connected n k)
  = ([Recv;
      Print ("An error occurred: "
             ++ str_repr py (match dict_get items "type" with
                             | None => "type"
                             | Some _ => "message"
                             end));
      Close],
     Disconnected (S n)).
Proof.
  intros Hr Hl Hmiss. unfold step, inner_iteration, read_and_render, loads, getitem.
  rewrite Hr. simpl. rewrite Hl. simpl.
  destruct (dict_get items "type") as [T | ]; simpl.
  - destruct Hmiss as [H | H]; [discriminate H | ]. rewrite H. reflexivity.
  - reflexivity.
Qed.

Lemma first_missing_field_reported_witness :
  recv_at world_mixed 1 0 = Frame frame_untyped
  /\ step sample_py world_mixed (Connected 1 0)
     = ([Recv; Print "An error occurred: 'type'"; Close], Disconnected 2).
Proof.
  split; [reflexivity | ].
  apply (first_missing_field_reported sample_py world_mixed 1 0 frame_untyped
           [("message", PyStr "no type here")] eq_refl eq_refl).
  left. reflexivity.
Defined.

(** X9.  In a world of catchable failures the client prints exactly one
    line for each receive and one for each sleep, and nothing else. *)
Theorem one_line_per_receive_or_retry
    (py : runtime) (w : world) (fuel : nat) (s : state) :
  catchable w ->
  count is_print (fst (run py w fuel s))
  = count is_recv (fst (run py w fuel s)) + count is_sleep (fst (run py w fuel s)).
Proof.
  intros Hw. revert s. induction fuel as [ | fuel IH]; intros s.
  - reflexivity.
  - rewrite run_S. simpl fst. rewrite !count_app, (step_prints py w s Hw), IH. lia.
Qed.

Lemma one_line_per_receive_or_retry_witness :
  catchable world_late_server
  /\ count is_print (fst (run sample_py world_late_server 6 initial))
     = count is_recv (fst (run sample_py world_late_server 6 initial))
       + count is_sleep (fst (run sample_py world_late_server 6 initial)).
Proof.
  assert (Hw : catchable world_late_server) by (apply scripted_catchable; reflexivity).
  split; [exact Hw | ].
  apply (one_line_per_receive_or_retry sample_py world_late_server 6 initial Hw).
Defined.
